(** * Cursor-To-OpenAI-Nexus example script (example.py)

  A shallow embedding of [main] and of the few Python and client-library
  operations it uses, followed by the properties of the script.

  What the script can observe from outside is taken as input of the model:
  - the process environment ([os.environ]), a finite map from names to
    values;
  - the command line, as the set of flags actually given (what
    [parser.parse_args()] reads);
  - the remote endpoint, an oracle answering the one chat-completion call.

  What the script does is a trace of events: the [print] calls, in order,
  and the calls of [client.chat.completions.create].  A run ends either by
  returning or with an uncaught exception. *)

From Stdlib Require Import String Ascii ZArith List DecimalString Lia.
From stdpp Require Import gmap strings.
Import ListNotations.

(** ** Python values and primitives *)

Module Py.

(** The uncaught exceptions a run can end with.  [IndexError] comes from
    [xs[0]] on an empty list, [AttributeError] from an attribute read on
    [None]; the others are raised by the client library: no credential
    to build a client with, the transport failed, the credential was
    rejected, the response could not be read, or the endpoint answered
    with an error status. *)
Inductive ClientError :=
| MissingCredential
| APIConnectionError
| AuthenticationError
| APIResponseValidationError
| APIStatusError (status : Z).

Inductive Exception :=
| IndexError
| AttributeError
| OpenAIError (e : ClientError).

Inductive Result (A : Type) :=
| Return (a : A)
| Raise (e : Exception).
Arguments Return {A} a.
Arguments Raise {A} e.

(** The line terminator, [chr(10)]. *)
Definition nl : string := String (ascii_of_nat 10) EmptyString.

(** [str(n)] for an [int]. *)
Definition str_int (n : Z) : string := NilZero.string_of_int (Z.to_int n).

(** [str(x)] for [x : Optional[str]]: [None] is rendered as its name. *)
Definition str_opt (x : option string) : string := default "None" x.

(** [s * n], string repetition. *)
Fixpoint str_mul (s : string) (n : nat) : string :=
  match n with
  | O => ""
  | S k => s +:+ str_mul s k
  end.

(** [d.get(key, fallback)] on a dictionary with string keys and values. *)
Definition get (d : gmap string string) (key fallback : string) : string :=
  default fallback (d !! key).

(** [xs[0]]. *)
Definition item0 {A : Type} (xs : list A) : Result A :=
  match xs with
  | x :: _ => Return x
  | [] => Raise IndexError
  end.

(** Reading an attribute of [x : Optional[A]]: fails on [None]. *)
Definition attr_of {A : Type} (x : option A) : Result A :=
  match x with
  | Some a => Return a
  | None => Raise AttributeError
  end.

(** [x is not None]. *)
Definition is_not_None {A : Type} (x : option A) : bool :=
  match x with
  | Some _ => true
  | None => false
  end.

End Py.
Export Py.

(** ** The client library's data, as far as the script reads or builds it *)

(** The namespace returned by [parser.parse_args()]: the Configuration. *)
Module Args.
Record Namespace := {
  api_key : string;
  base_url : string;
  model : string;
  prompt : string;
  stream : bool
}.
End Args.

(** [OpenAI(api_key=..., base_url=...)]. *)
Module Client.
Record OpenAI := {
  api_key : string;
  base_url : string
}.
End Client.

(** The keyword arguments of [client.chat.completions.create]: the request
  body. *)
Module Request.
Record Message := {
  role : string;
  content : string
}.
Record Body := {
  model : string;
  messages : list Message;
  stream : bool
}.
End Request.

(** A non-streaming response ([ChatCompletion]).  The list of choices may be
  empty, the content of a message and the usage block are optional. *)
Module Response.
Record ChatCompletionMessage := {
  content : option string
}.
Record Choice := {
  message : ChatCompletionMessage
}.
Record CompletionUsage := {
  completion_tokens : Z;
  prompt_tokens : Z;
  total_tokens : Z
}.
Record ChatCompletion := {
  choices : list Choice;
  model : string;
  usage : option CompletionUsage
}.
End Response.

(** A streamed response: the chunks delivered, in arrival order, and how the
  iteration ends: [None] when the endpoint closes the stream, [Some e]
  when fetching the next chunk raises [e]. *)
Module Chunk.
Record ChoiceDelta := {
  content : option string
}.
Record Choice := {
  delta : ChoiceDelta
}.
Record ChatCompletionChunk := {
  choices : list Choice
}.
Record Stream := {
  chunks : list ChatCompletionChunk;
  failure : option Exception
}.
End Chunk.

(** The remote endpoint behind [client.chat.completions.create]: with
  [stream=False] the call returns a completion or raises, with
  [stream=True] it returns a stream or raises. *)
Record Endpoint := {
  respond : Client.OpenAI -> Request.Body -> Result Response.ChatCompletion;
  respond_stream : Client.OpenAI -> Request.Body -> Result Chunk.Stream
}.

(** The flags given on the command line: [Some v] for [--flag v], [None]
  when the flag is absent; [--stream] takes no value. *)
Record CommandLine := {
  opt_api_key : option string;
  opt_base_url : option string;
  opt_model : option string;
  opt_prompt : option string;
  opt_stream : bool
}.

(** ** Runs: a trace of events and a result *)

Inductive Event :=
| Print (text end_ : string)
| Create (client : Client.OpenAI) (body : Request.Body).

Definition Proc (A : Type) : Type := list Event * Result A.

Definition ret {A : Type} (a : A) : Proc A := ([], Return a).

Definition bind {A B : Type} (m : Proc A) (k : A -> Proc B) : Proc B :=
  match m with
  | (t, Return a) => let (t', r) := k a in (t ++ t', r)
  | (t, Raise e) => (t, Raise e)
  end.

Definition lift {A : Type} (r : Result A) : Proc A := ([], r).

Declare Scope proc_scope.
Delimit Scope proc_scope with proc.
Notation "x <- m ;; k" := (bind m (fun x => k))
  (at level 100, m at next level, right associativity) : proc_scope.
Notation "m ;; k" := (bind m (fun _ => k))
  (at level 100, right associativity) : proc_scope.
Local Open Scope proc_scope.

(** [print(text)] and [print(text, end=end_)]. *)
Definition print (text : string) : Proc unit := ([Print text nl], Return tt).
Definition print_end (text end_ : string) : Proc unit :=
  ([Print text end_], Return tt).

(** [OpenAI(api_key=, base_url=)]: the client library refuses to build a
    client with an empty credential and raises; the base address is taken
    as it is. *)
Definition OpenAI (api_key base_url : string) : Proc Client.OpenAI :=
  match api_key with
  | EmptyString => lift (Raise (OpenAIError MissingCredential))
  | String _ _ =>
      ret {| Client.api_key := api_key; Client.base_url := base_url |}
  end.

(** [client.chat.completions.create(model=, messages=, stream=False)]: the
    call is recorded, then returns the completion or raises. *)
Definition create (ep : Endpoint) (client : Client.OpenAI)
    (model : string) (messages : list Request.Message)
    : Proc Response.ChatCompletion :=
  let body := {| Request.model := model; Request.messages := messages;
                 Request.stream := false |} in
  ([Create client body], respond ep client body).

(** [client.chat.completions.create(model=, messages=, stream=True)]. *)
Definition create_stream (ep : Endpoint) (client : Client.OpenAI)
    (model : string) (messages : list Request.Message)
    : Proc Chunk.Stream :=
  let body := {| Request.model := model; Request.messages := messages;
                 Request.stream := true |} in
  ([Create client body], respond_stream ep client body).

(** [for x in xs: body(x)] over the items already delivered. *)
Fixpoint for_each {A : Type} (body : A -> Proc unit) (xs : list A)
    : Proc unit :=
  match xs with
  | [] => ret tt
  | x :: rest => body x ;; for_each body rest
  end.

(** [for chunk in stream: body(chunk)]: the delivered chunks are consumed
    in order; then the iteration stops, or raises what the transport
    raised. *)
Definition for_chunk (body : Chunk.ChatCompletionChunk -> Proc unit)
    (stream : Chunk.Stream) : Proc unit :=
  for_each body (Chunk.chunks stream) ;;
  match Chunk.failure stream with
  | None => ret tt
  | Some e => lift (Raise e)
  end.

(** ** The script *)

(** [parser.parse_args()] with the five [add_argument] declarations: a flag
    that is given wins, otherwise the declared default; the defaults of
    [--api-key] and [--base-url] read the environment. *)
Definition parse_args (environ : gmap string string) (argv : CommandLine)
    : Args.Namespace :=
  {| Args.api_key :=
       default (Py.get environ "CURSOR_API_KEY" "sk-cursor-api-key")
               (opt_api_key argv);
     Args.base_url :=
       default (Py.get environ "CURSOR_BASE_URL" "http://localhost:3010/v1")
               (opt_base_url argv);
     Args.model := default "claude-3.7-sonnet-thinking" (opt_model argv);
     Args.prompt :=
       default "Explain quantum computing in simple terms." (opt_prompt argv);
     Args.stream := opt_stream argv |}.

(** The body of the streaming loop (lines 50-51): [chunk.choices[0]] is
    evaluated for the test and again for the [print]. *)
Definition print_chunk (chunk : Chunk.ChatCompletionChunk) : Proc unit :=
  c <- lift (item0 (Chunk.choices chunk)) ;;
  if is_not_None (Chunk.content (Chunk.delta c)) then
    c' <- lift (item0 (Chunk.choices chunk)) ;;
    print_end (str_opt (Chunk.content (Chunk.delta c'))) ""
  else ret tt.

Definition main (environ : gmap string string) (argv : CommandLine)
    (ep : Endpoint) : Proc unit :=
  let args := parse_args environ argv in
  client <- OpenAI (Args.api_key args) (Args.base_url args) ;;
  print ("Sending request to " +:+ Args.model args +:+ "...") ;;
  print ("Prompt: " +:+ Args.prompt args) ;;
  print (str_mul "-" 50) ;;
  if Args.stream args then
    stream <- create_stream ep client (Args.model args)
                [{| Request.role := "user";
                    Request.content := Args.prompt args |}] ;;
    for_chunk print_chunk stream ;;
    print nl
  else
    response <- create ep client (Args.model args)
                  [{| Request.role := "user";
                      Request.content := Args.prompt args |}] ;;
    c <- lift (item0 (Response.choices response)) ;;
    print (str_opt (Response.content (Response.message c))) ;;
    print (str_mul "-" 50) ;;
    print ("Model: " +:+ Response.model response) ;;
    u <- lift (attr_of (Response.usage response)) ;;
    print ("Completion tokens: " +:+ str_int (Response.completion_tokens u)) ;;
    u <- lift (attr_of (Response.usage response)) ;;
    print ("Prompt tokens: " +:+ str_int (Response.prompt_tokens u)) ;;
    u <- lift (attr_of (Response.usage response)) ;;
    print ("Total tokens: " +:+ str_int (Response.total_tokens u)).

(** ** Observations of a run *)

Definition trace {A : Type} (run : Proc A) : list Event := fst run.
Definition result {A : Type} (run : Proc A) : Result A := snd run.

(** The exit status of the interpreter: 0 when [main] returns, 1 when an
    exception reaches the top level. *)
Definition exit_status (run : Proc unit) : Z :=
  match result run with
  | Return _ => 0
  | Raise _ => 1
  end.

(** What the events write on the standard output. *)
Fixpoint stdout (t : list Event) : string :=
  match t with
  | [] => ""
  | Print text end_ :: rest => text +:+ end_ +:+ stdout rest
  | Create _ _ :: rest => stdout rest
  end.

(** The calls issued to the endpoint, in order. *)
Fixpoint calls (t : list Event) : list (Client.OpenAI * Request.Body) :=
  match t with
  | [] => []
  | Print _ _ :: rest => calls rest
  | Create client body :: rest => (client, body) :: calls rest
  end.

(** ** Vocabulary of the properties *)

(** The three lines printed before the call. *)
Definition preamble (args : Args.Namespace) : list Event :=
  [ Print ("Sending request to " +:+ Args.model args +:+ "...") nl;
    Print ("Prompt: " +:+ Args.prompt args) nl;
    Print "--------------------------------------------------" nl ].

(** The client built from a configuration and the body of its request. *)
Definition client_of (args : Args.Namespace) : Client.OpenAI :=
  {| Client.api_key := Args.api_key args;
     Client.base_url := Args.base_url args |}.

Definition body_of (args : Args.Namespace) : Request.Body :=
  {| Request.model := Args.model args;
     Request.messages :=
       [{| Request.role := "user"; Request.content := Args.prompt args |}];
     Request.stream := Args.stream args |}.

(** The content fragment a chunk carries: that of its first choice. *)
Definition fragment (chunk : Chunk.ChatCompletionChunk) : option string :=
  match Chunk.choices chunk with
  | c :: _ => Chunk.content (Chunk.delta c)
  | [] => None
  end.

(** The non-null fragments of a sequence of chunks, in arrival order. *)
Definition fragments (cs : list Chunk.ChatCompletionChunk) : list string :=
  omap fragment cs.

(** The chunks consumed before the first one without a choice. *)
Fixpoint consumed (cs : list Chunk.ChatCompletionChunk)
    : list Chunk.ChatCompletionChunk :=
  match cs with
  | [] => []
  | chunk :: rest =>
      match Chunk.choices chunk with
      | [] => []
      | _ :: _ => chunk :: consumed rest
      end
  end.

(** Whether [chunk.choices[0]] exists. *)
Definition has_choice (chunk : Chunk.ChatCompletionChunk) : bool :=
  match Chunk.choices chunk with
  | [] => false
  | _ :: _ => true
  end.

(** A fragment is printed as it is, with nothing after it. *)
Definition print_fragment (s : string) : Event := Print s "".


(** ** Test doubles

    The inputs at which the theorems are instantiated: command lines, and
    endpoints answering as a mocked service would. *)

Definition no_flags : CommandLine :=
  {| opt_api_key := None; opt_base_url := None; opt_model := None;
     opt_prompt := None; opt_stream := false |}.

Definition only_stream : CommandLine :=
  {| opt_api_key := None; opt_base_url := None; opt_model := None;
     opt_prompt := None; opt_stream := true |}.

Definition chunk_of (content : option string) : Chunk.ChatCompletionChunk :=
  {| Chunk.choices := [{| Chunk.delta := {| Chunk.content := content |} |}] |}.

Definition hello : Response.ChatCompletion :=
  {| Response.choices :=
       [{| Response.message := {| Response.content := Some "Hello" |} |}];
     Response.model := "nexus";
     Response.usage :=
       Some {| Response.completion_tokens := 2;
               Response.prompt_tokens := 5;
               Response.total_tokens := 7 |} |}.

Definition hello_stream : Chunk.Stream :=
  {| Chunk.chunks := [chunk_of (Some "Hel"); chunk_of None; chunk_of (Some "lo")];
     Chunk.failure := None |}.

(** An endpoint that answers every call the same way. *)
Definition mock (r : Result Response.ChatCompletion) (s : Result Chunk.Stream)
    : Endpoint :=
  {| respond := fun _ _ => r; respond_stream := fun _ _ => s |}.

Definition hello_endpoint : Endpoint := mock (Return hello) (Return hello_stream).

(** A service that is down. *)
Definition unreachable : Endpoint :=
  mock (Raise (OpenAIError APIConnectionError))
       (Raise (OpenAIError APIConnectionError)).


(** The base address given by flag. *)
Definition base_url_flag : CommandLine :=
  {| opt_api_key := None; opt_base_url := Some "http://nexus:3010/v1";
     opt_model := None; opt_prompt := None; opt_stream := false |}.

(** The credential given by the environment. *)
Definition key_in_environ : gmap string string :=
  <["CURSOR_API_KEY" := "sk-from-environ"]> ∅.

(** The empty string given as credential, by flag or by the environment. *)
Definition empty_key_flag : CommandLine :=
  {| opt_api_key := Some ""; opt_base_url := None; opt_model := None;
     opt_prompt := None; opt_stream := false |}.

Definition empty_key_environ : gmap string string :=
  <["CURSOR_API_KEY" := ""]> ∅.

(** The empty string given as base address. *)
Definition empty_url_flag : CommandLine :=
  {| opt_api_key := None; opt_base_url := Some ""; opt_model := None;
     opt_prompt := None; opt_stream := false |}.

(** ** Further vocabulary *)

(** The answers on which a run returns: a stream that closes after chunks
    that each carry a choice, or a completion with a choice and a usage
    block. *)
Definition answered_well (args : Args.Namespace) (ep : Endpoint) : Prop :=
  if Args.stream args then
    match respond_stream ep (client_of args) (body_of args) with
    | Raise _ => False
    | Return s =>
        Chunk.failure s = None /\
        Forall (fun chunk => Chunk.choices chunk <> []) (Chunk.chunks s)
    end
  else
    match respond ep (client_of args) (body_of args) with
    | Raise _ => False
    | Return response =>
        Response.choices response <> [] /\ Response.usage response <> None
    end.

(** The same answers with every list of choices cut after its first
    element. *)
Definition first_only {A : Type} (xs : list A) : list A :=
  match xs with
  | [] => []
  | x :: _ => [x]
  end.

Definition trim_chunk (chunk : Chunk.ChatCompletionChunk)
    : Chunk.ChatCompletionChunk :=
  {| Chunk.choices := first_only (Chunk.choices chunk) |}.

Definition trim_stream (s : Chunk.Stream) : Chunk.Stream :=
  {| Chunk.chunks := map trim_chunk (Chunk.chunks s);
     Chunk.failure := Chunk.failure s |}.

Definition trim_response (response : Response.ChatCompletion)
    : Response.ChatCompletion :=
  {| Response.choices := first_only (Response.choices response);
     Response.model := Response.model response;
     Response.usage := Response.usage response |}.

Definition trim_result {A : Type} (f : A -> A) (r : Result A) : Result A :=
  match r with
  | Return a => Return (f a)
  | Raise e => Raise e
  end.

Definition trim_endpoint (ep : Endpoint) : Endpoint :=
  {| respond := fun client body =>
       trim_result trim_response (respond ep client body);
     respond_stream := fun client body =>
       trim_result trim_stream (respond_stream ep client body) |}.

(** An endpoint whose answer does not depend on the credential or on the
    address it is reached at. *)
Definition client_blind (ep : Endpoint) : Prop :=
  forall client client' body,
    respond ep client body = respond ep client' body /\
    respond_stream ep client body = respond_stream ep client' body.

(** A command line with other [--api-key] and [--base-url] flags. *)
Definition with_credentials (key url : option string) (argv : CommandLine)
    : CommandLine :=
  {| opt_api_key := key; opt_base_url := url;
     opt_model := opt_model argv; opt_prompt := opt_prompt argv;
     opt_stream := opt_stream argv |}.

(** More test doubles: a stream cut by the transport after "Hel", a stream
    with a chunk that has no choice, a completion whose content is null. *)
Definition cut_stream : Endpoint :=
  mock (Raise (OpenAIError APIConnectionError))
       (Return {| Chunk.chunks := [chunk_of (Some "Hel")];
                  Chunk.failure := Some (OpenAIError APIConnectionError) |}).

Definition bare_chunk : Chunk.ChatCompletionChunk := {| Chunk.choices := [] |}.

Definition bare_chunk_stream : Endpoint :=
  mock (Raise (OpenAIError APIConnectionError))
       (Return {| Chunk.chunks :=
                    [chunk_of (Some "Hel"); bare_chunk; chunk_of (Some "lo")];
                  Chunk.failure := None |}).

Definition null_content : Endpoint :=
  mock (Return {| Response.choices :=
                    [{| Response.message := {| Response.content := None |} |}];
                  Response.model := "nexus";
                  Response.usage := Response.usage hello |})
       (Return hello_stream).

Section Strings.

Lemma append_nil_l (s : string) : "" +:+ s = s.
Proof. reflexivity. Qed.

Lemma append_cons (a : ascii) (s1 s2 : string) :
  String a s1 +:+ s2 = String a (s1 +:+ s2).
Proof. reflexivity. Qed.

Lemma append_nil_r (s : string) : s +:+ "" = s.
Proof.
  induction s as [|a s IH]; [reflexivity|].
  rewrite append_cons, IH. reflexivity.
Qed.

Lemma append_assoc (s1 s2 s3 : string) :
  (s1 +:+ s2) +:+ s3 = s1 +:+ (s2 +:+ s3).
Proof.
  induction s1 as [|a s1 IH]; [reflexivity|].
  rewrite !append_cons, IH. reflexivity.
Qed.

Lemma append_length (s1 s2 : string) :
  String.length (s1 +:+ s2) = String.length s1 + String.length s2.
Proof.
  induction s1 as [|a s1 IH]; [reflexivity|].
  rewrite append_cons. cbn [String.length]. rewrite IH. reflexivity.
Qed.

Lemma str_mul_length (s : string) (n : nat) :
  String.length (str_mul s n) = n * String.length s.
Proof.
  induction n as [|n IH]; [reflexivity|].
  cbn [str_mul]. rewrite append_length, IH. lia.
Qed.

Lemma str_mul_dash (k n : nat) (a : ascii) :
  String.get n (str_mul "-" k) = Some a -> a = "-"%char.
Proof.
  revert n. induction k as [|k IH]; intros n; cbn [str_mul].
  - destruct n; discriminate.
  - rewrite append_cons, append_nil_l. destruct n as [|n]; cbn [String.get].
    + congruence.
    + apply IH.
Qed.

Lemma join_cons (s : string) (ss : list string) :
  String.concat "" (s :: ss) = s +:+ String.concat "" ss.
Proof.
  destruct ss as [|s' ss]; cbn [String.concat].
  - rewrite append_nil_r. reflexivity.
  - reflexivity.
Qed.

(** ["-" * 50], written out. *)
Lemma dashes : str_mul "-" 50 = "--------------------------------------------------".
Proof. reflexivity. Qed.

End Strings.

Section Traces.

Lemma stdout_app (t1 t2 : list Event) :
  stdout (t1 ++ t2) = stdout t1 +:+ stdout t2.
Proof.
  induction t1 as [|[text end_|c b] t1 IH]; cbn [stdout app]; [reflexivity | | exact IH].
  rewrite IH, !append_assoc. reflexivity.
Qed.

Lemma calls_app (t1 t2 : list Event) :
  calls (t1 ++ t2) = calls t1 ++ calls t2.
Proof.
  induction t1 as [|[text end_|c b] t1 IH]; cbn [calls app]; [reflexivity | exact IH |].
  rewrite IH. reflexivity.
Qed.

Lemma stdout_fragments (fs : list string) :
  stdout (map print_fragment fs) = String.concat "" fs.
Proof.
  induction fs as [|f fs IH]; [reflexivity|].
  rewrite join_cons. cbn [map stdout print_fragment].
  rewrite IH, append_nil_l. reflexivity.
Qed.

(** The loop, on any sequence of chunks: it prints the non-null fragments
    of the chunks up to the first one without a choice, and fails there. *)
Lemma for_each_print_chunk (cs : list Chunk.ChatCompletionChunk) :
  for_each print_chunk cs =
    (map print_fragment (fragments (consumed cs)),
     if forallb has_choice cs then Return tt else Raise IndexError).
Proof.
  induction cs as [|chunk cs IH]; [reflexivity|].
  cbn [for_each consumed forallb]. unfold print_chunk at 1, has_choice at 1.
  destruct chunk as [[|[[[f|]]] more]]; cbn; [reflexivity | |];
    rewrite IH; destruct (forallb has_choice cs); reflexivity.
Qed.

Lemma consumed_all (cs : list Chunk.ChatCompletionChunk) :
  forallb has_choice cs = true -> consumed cs = cs.
Proof.
  induction cs as [|[[|c more]] cs IH]; cbn; intros H;
    [reflexivity | discriminate | rewrite IH by exact H; reflexivity].
Qed.

Lemma has_choice_Forall (cs : list Chunk.ChatCompletionChunk) :
  forallb has_choice cs = true <->
  Forall (fun chunk => Chunk.choices chunk <> []) cs.
Proof.
  induction cs as [|chunk cs IH]; cbn [forallb].
  - split; [constructor | reflexivity].
  - rewrite andb_true_iff, IH. split.
    + intros [Hc Hcs]. constructor; [|exact Hcs].
      unfold has_choice in Hc. destruct (Chunk.choices chunk); congruence.
    + intros H. inversion H as [|? ? Hc Hcs]; subst. split; [|exact Hcs].
      unfold has_choice. destruct (Chunk.choices chunk); congruence.
Qed.

Lemma no_choice_Exists (cs : list Chunk.ChatCompletionChunk) :
  forallb has_choice cs = false ->
  Exists (fun chunk => Chunk.choices chunk = []) cs.
Proof.
  induction cs as [|chunk cs IH]; cbn [forallb]; [discriminate|].
  unfold has_choice at 1.
  destruct (Chunk.choices chunk) eqn:Hc; cbn; intros H.
  - left. exact Hc.
  - right. exact (IH H).
Qed.

End Traces.

Section Runs.

Variables (environ : gmap string string) (argv : CommandLine) (ep : Endpoint).

Let args := parse_args environ argv.

Lemma bind_ret_l {A B : Type} (a : A) (k : A -> Proc B) : bind (ret a) k = k a.
Proof. unfold bind, ret. destruct (k a). reflexivity. Qed.

(** With a credential, the constructor returns the client. *)
Lemma OpenAI_returns (api_key base_url : string) :
  api_key <> "" ->
  OpenAI api_key base_url =
    ret {| Client.api_key := api_key; Client.base_url := base_url |}.
Proof. destruct api_key; [congruence | reflexivity]. Qed.

(** Without one, the run ends in the constructor, before the first print. *)
Lemma main_without_credential :
  Args.api_key args = "" ->
  main environ argv ep = ([], Raise (OpenAIError MissingCredential)).
Proof. intros Hkey. unfold main. fold args. rewrite Hkey. reflexivity. Qed.

(** A streaming run, by cases on what the endpoint answers. *)
Lemma main_streaming :
  Args.api_key args <> "" ->
  Args.stream args = true ->
  main environ argv ep =
    match respond_stream ep (client_of args) (body_of args) with
    | Raise e => (preamble args ++ [Create (client_of args) (body_of args)], Raise e)
    | Return s =>
        (preamble args ++ Create (client_of args) (body_of args)
           :: map print_fragment (fragments (consumed (Chunk.chunks s)))
           ++ (if forallb has_choice (Chunk.chunks s) then
                 match Chunk.failure s with
                 | None => [Print nl nl]
                 | Some _ => []
                 end
               else []),
         if forallb has_choice (Chunk.chunks s) then
           match Chunk.failure s with
           | None => Return tt
           | Some e => Raise e
           end
         else Raise IndexError)
    end.
Proof.
  intros Hkey Hs. unfold main. fold args.
  rewrite (OpenAI_returns _ _ Hkey), bind_ret_l, Hs.
  unfold create_stream, for_chunk.
  replace {| Request.model := Args.model args;
             Request.messages := [{| Request.role := "user"; Request.content := Args.prompt args |}];
             Request.stream := true |} with (body_of args)
    by (unfold body_of; rewrite Hs; reflexivity).
  fold (client_of args).
  destruct (respond_stream ep (client_of args) (body_of args)) as [s|e]; [|reflexivity].
  unfold print, bind at 1 2 3 4. cbn beta iota.
  rewrite for_each_print_chunk.
  destruct (forallb has_choice (Chunk.chunks s)); [|cbn; rewrite app_nil_r; reflexivity].
  destruct (Chunk.failure s); cbn; rewrite ?app_nil_r; reflexivity.
Qed.

(** A non-streaming run, by cases on what the endpoint answers and on the
    shape of the response. *)
Lemma main_blocking :
  Args.api_key args <> "" ->
  Args.stream args = false ->
  main environ argv ep =
    let call := Create (client_of args) (body_of args) in
    match respond ep (client_of args) (body_of args) with
    | Raise e => (preamble args ++ [call], Raise e)
    | Return response =>
        match Response.choices response with
        | [] => (preamble args ++ [call], Raise IndexError)
        | c :: _ =>
            let shown :=
              [ Print (str_opt (Response.content (Response.message c))) nl;
                Print (str_mul "-" 50) nl;
                Print ("Model: " +:+ Response.model response) nl ] in
            match Response.usage response with
            | None => (preamble args ++ call :: shown, Raise AttributeError)
            | Some u =>
                (preamble args ++ call :: shown ++
                   [ Print ("Completion tokens: " +:+
                              str_int (Response.completion_tokens u)) nl;
                     Print ("Prompt tokens: " +:+
                              str_int (Response.prompt_tokens u)) nl;
                     Print ("Total tokens: " +:+
                              str_int (Response.total_tokens u)) nl ],
                 Return tt)
            end
        end
    end.
Proof.
  intros Hkey Hs. unfold main. fold args.
  rewrite (OpenAI_returns _ _ Hkey), bind_ret_l, Hs.
  unfold create.
  replace {| Request.model := Args.model args;
             Request.messages := [{| Request.role := "user"; Request.content := Args.prompt args |}];
             Request.stream := false |} with (body_of args)
    by (unfold body_of; rewrite Hs; reflexivity).
  fold (client_of args).
  destruct (respond ep (client_of args) (body_of args)) as [response|e]; [|reflexivity].
  unfold print, bind at 1 2 3 4. cbn beta iota.
  destruct (Response.choices response) as [|c more]; [reflexivity|].
  destruct (Response.usage response) as [u|]; reflexivity.
Qed.

Lemma calls_fragments (fs : list string) : calls (map print_fragment fs) = [].
Proof. induction fs as [|f fs IH]; [reflexivity | exact IH]. Qed.

Lemma calls_preamble (cfg : Args.Namespace) : calls (preamble cfg) = [].
Proof. reflexivity. Qed.

(** Every Configuration is the outcome of parsing some command line: the
    one that gives all five flags. *)
Lemma parse_args_onto (cfg : Args.Namespace) :
  parse_args environ
    {| opt_api_key := Some (Args.api_key cfg);
       opt_base_url := Some (Args.base_url cfg);
       opt_model := Some (Args.model cfg);
       opt_prompt := Some (Args.prompt cfg);
       opt_stream := Args.stream cfg |} = cfg.
Proof. destruct cfg; reflexivity. Qed.

(** The calls of a run whose client is built, whatever the endpoint
    answers. *)
Lemma main_calls :
  Args.api_key args <> "" ->
  calls (trace (main environ argv ep)) = [(client_of args, body_of args)].
Proof.
  intros Hkey. destruct (Args.stream args) eqn:Hs.
  - rewrite (main_streaming Hkey Hs).
    destruct (respond_stream ep (client_of args) (body_of args)) as [s|e];
      cbn [trace fst]; rewrite calls_app, calls_preamble; cbn [calls app];
      [|reflexivity].
    rewrite calls_app, calls_fragments.
    destruct (forallb has_choice (Chunk.chunks s)); [|reflexivity].
    destruct (Chunk.failure s); reflexivity.
  - rewrite (main_blocking Hkey Hs). cbv zeta.
    destruct (respond ep (client_of args) (body_of args)) as [response|e];
      [|reflexivity].
    destruct (Response.choices response) as [|c more]; [reflexivity|].
    destruct (Response.usage response) as [u|]; reflexivity.
Qed.

(** A call is only ever issued by a client that holds a credential. *)
Lemma main_calls_In (client : Client.OpenAI) (body : Request.Body) :
  In (client, body) (calls (trace (main environ argv ep))) ->
  Args.api_key args <> "" /\ client = client_of args /\ body = body_of args.
Proof.
  destruct (Args.api_key args) as [|a k] eqn:Hkey.
  - rewrite (main_without_credential Hkey). intros [].
  - assert (Hne : Args.api_key args <> "") by (rewrite Hkey; discriminate).
    rewrite (main_calls Hne). intros [Heq|[]].
    split; [discriminate|]. split; congruence.
Qed.

End Runs.

(** ** Properties *)

(** C1, as the code has it. A run whose credential is not empty issues
    exactly one chat-completion call, whatever the endpoint answers; its
    body holds the configured model identifier, a one-element message list
    whose message has role "user" and the configured prompt as content,
    and the streaming flag. With an empty credential the constructor of
    the client raises and no call is issued. *)
Theorem one_call_per_run (environ : gmap string string) (argv : CommandLine)
    (ep : Endpoint) :
  let args := parse_args environ argv in
  (Args.api_key args <> "" ->
   calls (trace (main environ argv ep)) =
     [({| Client.api_key := Args.api_key args;
          Client.base_url := Args.base_url args |},
       {| Request.model := Args.model args;
          Request.messages :=
            [{| Request.role := "user";
                Request.content := Args.prompt args |}];
          Request.stream := Args.stream args |})]) /\
  (Args.api_key args = "" -> calls (trace (main environ argv ep)) = []).
Proof.
  intros args. split; intros Hkey.
  - apply main_calls. exact Hkey.
  - rewrite (main_without_credential environ argv ep Hkey). reflexivity.
Qed.

Lemma one_call_per_run_witness :
  calls (trace (main ∅ no_flags hello_endpoint)) =
    [({| Client.api_key := "sk-cursor-api-key";
         Client.base_url := "http://localhost:3010/v1" |},
      {| Request.model := "claude-3.7-sonnet-thinking";
         Request.messages :=
           [{| Request.role := "user";
               Request.content :=
                 "Explain quantum computing in simple terms." |}];
         Request.stream := false |})].
Proof.
  refine (proj1 (one_call_per_run ∅ no_flags hello_endpoint) _).
  discriminate.
Defined.

(** C1, as stated, fails: with [--api-key ""] the run ends in the
    constructor of the client, with exit status 1 and without any call. *)
Lemma no_call_with_empty_credential :
  calls (trace (main ∅ empty_key_flag hello_endpoint)) = [] /\
  exit_status (main ∅ empty_key_flag hello_endpoint) = 1%Z.
Proof. split; reflexivity. Qed.

(** C2. A non-streaming run whose call returns a response with a first
    choice and a usage block ends normally, and after the call it prints
    the content of that choice, a separator of 50 dashes, then exactly four
    lines: the echoed model identifier, the completion-token count, the
    prompt-token count and the total-token count, in this order. *)
Theorem completion_then_four_metadata_lines (environ : gmap string string)
    (argv : CommandLine) (ep : Endpoint)
    (response : Response.ChatCompletion) (c : Response.Choice)
    (more : list Response.Choice) (u : Response.CompletionUsage) :
  let args := parse_args environ argv in
  Args.api_key args <> "" ->
  opt_stream argv = false ->
  respond ep (client_of args) (body_of args) = Return response ->
  Response.choices response = c :: more ->
  Response.usage response = Some u ->
  exit_status (main environ argv ep) = 0%Z /\
  trace (main environ argv ep) =
    preamble args ++ Create (client_of args) (body_of args) ::
      [ Print (str_opt (Response.content (Response.message c))) nl;
        Print "--------------------------------------------------" nl;
        Print ("Model: " +:+ Response.model response) nl;
        Print ("Completion tokens: " +:+
                 str_int (Response.completion_tokens u)) nl;
        Print ("Prompt tokens: " +:+ str_int (Response.prompt_tokens u)) nl;
        Print ("Total tokens: " +:+ str_int (Response.total_tokens u)) nl ].
Proof.
  intros args Hkey Hflag Hcall Hchoices Husage.
  rewrite (main_blocking environ argv ep Hkey Hflag). fold args. cbv zeta.
  rewrite Hcall, Hchoices, Husage. split; reflexivity.
Qed.

(** The mocked endpoint of the specification: content "Hello", usage
    prompt 5, completion 2, total 7. *)
Lemma completion_then_four_metadata_lines_witness :
  exit_status (main ∅ no_flags hello_endpoint) = 0%Z /\
  trace (main ∅ no_flags hello_endpoint) =
    preamble (parse_args ∅ no_flags) ++
    Create (client_of (parse_args ∅ no_flags))
           (body_of (parse_args ∅ no_flags)) ::
      [ Print "Hello" nl;
        Print "--------------------------------------------------" nl;
        Print "Model: nexus" nl;
        Print "Completion tokens: 2" nl;
        Print "Prompt tokens: 5" nl;
        Print "Total tokens: 7" nl ].
Proof.
  refine (completion_then_four_metadata_lines ∅ no_flags hello_endpoint hello
            _ _ _ _ eq_refl eq_refl eq_refl eq_refl).
  discriminate.
Defined.

(** C3, as the code has it. In a streaming run whose chunks each carry a
    first choice, the standard output is the preamble, then the non-null
    fragments of the chunks joined in arrival order with nothing between
    them, then the closing newlines when the endpoint closes the stream
    (nothing when the transport fails instead); a chunk whose content is
    null prints nothing. *)
Theorem streamed_fragments_are_concatenated (environ : gmap string string)
    (argv : CommandLine) (ep : Endpoint) (s : Chunk.Stream) :
  let args := parse_args environ argv in
  Args.api_key args <> "" ->
  opt_stream argv = true ->
  respond_stream ep (client_of args) (body_of args) = Return s ->
  Forall (fun chunk => Chunk.choices chunk <> []) (Chunk.chunks s) ->
  stdout (trace (main environ argv ep)) =
    stdout (preamble args) +:+
    String.concat "" (fragments (Chunk.chunks s)) +:+
    match Chunk.failure s with
    | None => nl +:+ nl
    | Some _ => ""
    end /\
  (forall chunk, Chunk.choices chunk <> [] -> fragment chunk = None ->
     print_chunk chunk = ([], Return tt)).
Proof.
  intros args Hkey Hflag Hcall Hwf. split.
  - rewrite (main_streaming environ argv ep Hkey Hflag). fold args.
    apply has_choice_Forall in Hwf.
    rewrite Hcall, Hwf, (consumed_all _ Hwf). cbn [trace fst].
    rewrite stdout_app. cbn [stdout]. rewrite stdout_app, stdout_fragments.
    destruct (Chunk.failure s); cbn [stdout]; rewrite ?append_nil_r;
      reflexivity.
  - intros [[|[[[f|]]] more]]; cbn; [congruence | discriminate | reflexivity].
Qed.

(** The mocked stream of the specification, "Hel" then "lo", with a null
    chunk in between. *)
Lemma streamed_fragments_are_concatenated_witness :
  stdout (trace (main ∅ only_stream hello_endpoint)) =
    stdout (preamble (parse_args ∅ only_stream)) +:+ "Hello" +:+ nl +:+ nl.
Proof.
  refine (proj1 (streamed_fragments_are_concatenated ∅ only_stream
                   hello_endpoint hello_stream _ eq_refl eq_refl _)).
  - discriminate.
  - repeat constructor; discriminate.
Defined.

(** C3, as stated, fails on a sequence with a chunk that has no choice:
    of the fragments "Hel" and "lo" only "Hel" is printed, the run ending
    with [IndexError] at the chunk between them. *)
Lemma fragments_after_bare_chunk_are_lost :
  fragments [chunk_of (Some "Hel"); bare_chunk; chunk_of (Some "lo")] =
    ["Hel"; "lo"] /\
  stdout (trace (main ∅ only_stream bare_chunk_stream)) =
    stdout (preamble (parse_args ∅ only_stream)) +:+ "Hel" /\
  result (main ∅ only_stream bare_chunk_stream) = Raise IndexError.
Proof. split; [|split]; reflexivity. Qed.




(** C5. Whatever a run sends, without [--model] the body carries the
    default model identifier and without [--prompt] its single message
    carries the default prompt; and a run whose credential is not empty
    sends exactly one such body. *)
Theorem default_model_and_prompt_sent (environ : gmap string string)
    (argv : CommandLine) (ep : Endpoint) :
  (forall client body,
     In (client, body) (calls (trace (main environ argv ep))) ->
     (opt_model argv = None ->
      Request.model body = "claude-3.7-sonnet-thinking") /\
     (opt_prompt argv = None ->
      Request.messages body =
        [{| Request.role := "user";
            Request.content :=
              "Explain quantum computing in simple terms." |}])) /\
  (Args.api_key (parse_args environ argv) <> "" ->
   exists client body,
     calls (trace (main environ argv ep)) = [(client, body)] /\
     (opt_model argv = None ->
      Request.model body = "claude-3.7-sonnet-thinking") /\
     (opt_prompt argv = None ->
      Request.messages body =
        [{| Request.role := "user";
            Request.content :=
              "Explain quantum computing in simple terms." |}])).
Proof.
  assert (Hbody :
    (opt_model argv = None ->
     Request.model (body_of (parse_args environ argv)) =
       "claude-3.7-sonnet-thinking") /\
    (opt_prompt argv = None ->
     Request.messages (body_of (parse_args environ argv)) =
       [{| Request.role := "user";
           Request.content :=
             "Explain quantum computing in simple terms." |}])).
  { unfold body_of, parse_args. cbn. split; intros ->; reflexivity. }
  split.
  - intros client body Hin.
    apply main_calls_In in Hin. destruct Hin as [_ [_ ->]]. exact Hbody.
  - intros Hkey. eexists _, _. split; [apply main_calls; exact Hkey|].
    exact Hbody.
Qed.

(** No flags on the command line. *)
Lemma default_model_and_prompt_sent_witness :
  exists client body,
    calls (trace (main ∅ no_flags unreachable)) = [(client, body)] /\
    (opt_model no_flags = None ->
     Request.model body = "claude-3.7-sonnet-thinking") /\
    (opt_prompt no_flags = None ->
     Request.messages body =
       [{| Request.role := "user";
           Request.content :=
             "Explain quantum computing in simple terms." |}]).
Proof.
  refine (proj2 (default_model_and_prompt_sent ∅ no_flags unreachable) _).
  discriminate.
Defined.

(** C6. The credential is the value of [--api-key] when the flag is given,
    else the value of CURSOR_API_KEY when the variable is set, else the
    literal; likewise the base address with [--base-url] and
    CURSOR_BASE_URL. These are the values the client is built with: when
    the credential so resolved is not empty, the client of the single call
    holds both, and without [--stream] the request does not stream; when
    it is empty, be it by flag or by the environment, the constructor
    raises. *)
Theorem flag_then_environment_then_literal (environ : gmap string string)
    (argv : CommandLine) (ep : Endpoint) :
  let key :=
    match opt_api_key argv, environ !! "CURSOR_API_KEY" with
    | Some flag, _ => flag
    | None, Some variable => variable
    | None, None => "sk-cursor-api-key"
    end in
  let url :=
    match opt_base_url argv, environ !! "CURSOR_BASE_URL" with
    | Some flag, _ => flag
    | None, Some variable => variable
    | None, None => "http://localhost:3010/v1"
    end in
  (key <> "" ->
   exists client body,
     calls (trace (main environ argv ep)) = [(client, body)] /\
     Client.api_key client = key /\
     Client.base_url client = url /\
     (opt_stream argv = false -> Request.stream body = false)) /\
  (key = "" ->
   main environ argv ep = ([], Raise (OpenAIError MissingCredential))).
Proof.
  intros key url.
  assert (Hkey : Args.api_key (parse_args environ argv) = key).
  { unfold key, parse_args, Py.get. cbn.
    destruct (opt_api_key argv), (environ !! "CURSOR_API_KEY"); reflexivity. }
  assert (Hurl : Args.base_url (parse_args environ argv) = url).
  { unfold url, parse_args, Py.get. cbn.
    destruct (opt_base_url argv), (environ !! "CURSOR_BASE_URL");
      reflexivity. }
  split; intros H.
  - eexists _, _. split; [apply main_calls; rewrite Hkey; exact H|].
    split; [exact Hkey|]. split; [exact Hurl|]. exact (fun Hs => Hs).
  - apply main_without_credential. rewrite Hkey. exact H.
Qed.

(** The base address given by flag, the credential by the environment. *)
Lemma flag_then_environment_then_literal_witness :
  exists client body,
    calls (trace (main key_in_environ base_url_flag hello_endpoint)) =
      [(client, body)] /\
    Client.api_key client = "sk-from-environ" /\
    Client.base_url client = "http://nexus:3010/v1" /\
    (opt_stream base_url_flag = false -> Request.stream body = false).
Proof.
  refine (proj1 (flag_then_environment_then_literal key_in_environ
                   base_url_flag hello_endpoint) _).
  discriminate.
Defined.

(** C7, as the code has it. A streaming run that consumes its stream to the
    end finishes with one more [print], of the newline string: after the
    last fragment the output ends with two newline characters, and the run
    returns. *)
Theorem stream_end_prints_blank_line (environ : gmap string string)
    (argv : CommandLine) (ep : Endpoint) (s : Chunk.Stream) :
  let args := parse_args environ argv in
  Args.api_key args <> "" ->
  opt_stream argv = true ->
  respond_stream ep (client_of args) (body_of args) = Return s ->
  Chunk.failure s = None ->
  Forall (fun chunk => Chunk.choices chunk <> []) (Chunk.chunks s) ->
  main environ argv ep =
    (preamble args ++ Create (client_of args) (body_of args) ::
       map print_fragment (fragments (Chunk.chunks s)) ++ [Print nl nl],
     Return tt) /\
  stdout [Print nl nl] = nl +:+ nl.
Proof.
  intros args Hkey Hflag Hcall Hend Hwf. split; [|reflexivity].
  rewrite (main_streaming environ argv ep Hkey Hflag). fold args.
  apply has_choice_Forall in Hwf.
  rewrite Hcall, Hwf, Hend, (consumed_all _ Hwf). reflexivity.
Qed.

Lemma stream_end_prints_blank_line_witness :
  main ∅ only_stream hello_endpoint =
    (preamble (parse_args ∅ only_stream) ++
     Create (client_of (parse_args ∅ only_stream))
            (body_of (parse_args ∅ only_stream)) ::
       [Print "Hel" ""; Print "lo" ""; Print nl nl],
     Return tt) /\
  stdout [Print nl nl] = nl +:+ nl.
Proof.
  refine (stream_end_prints_blank_line ∅ only_stream hello_endpoint
            hello_stream _ eq_refl eq_refl eq_refl _).
  - discriminate.
  - repeat constructor; discriminate.
Defined.

(** C7, as stated, fails: after the fragments "Hel" and "lo" the output
    does not end with a single newline character, but with two. *)
Lemma stream_end_is_not_a_single_newline :
  stdout (trace (main ∅ only_stream hello_endpoint)) =
    stdout (preamble (parse_args ∅ only_stream)) +:+ "Hello" +:+ nl +:+ nl /\
  stdout (trace (main ∅ only_stream hello_endpoint)) <>
    stdout (preamble (parse_args ∅ only_stream)) +:+ "Hello" +:+ nl.
Proof. split; [reflexivity | discriminate]. Qed.

(** C8, as the code has it. A client that issues a call always holds a
    non-empty credential, the constructor refusing an empty one; the base
    address is not checked by anyone, and is non-empty whenever neither
    [--base-url] nor CURSOR_BASE_URL gives the empty string. *)
Theorem credential_and_address_nonempty (environ : gmap string string)
    (argv : CommandLine) (ep : Endpoint)
    (client : Client.OpenAI) (body : Request.Body) :
  In (client, body) (calls (trace (main environ argv ep))) ->
  Client.api_key client <> "" /\
  (opt_base_url argv <> Some "" ->
   environ !! "CURSOR_BASE_URL" <> Some "" ->
   Client.base_url client <> "").
Proof.
  intros Hin. apply main_calls_In in Hin. destruct Hin as [Hkey [-> _]].
  split; [exact Hkey|].
  intros Hb Heb. unfold client_of, parse_args, Py.get. cbn.
  destruct (opt_base_url argv) as [b|]; cbn;
    [intros ->; apply Hb; reflexivity|].
  destruct (environ !! "CURSOR_BASE_URL") as [b|]; cbn;
    [intros ->; apply Heb; reflexivity | discriminate].
Qed.

Lemma credential_and_address_nonempty_witness :
  "sk-from-environ" <> "" /\
  (opt_base_url base_url_flag <> Some "" ->
   key_in_environ !! "CURSOR_BASE_URL" <> Some "" ->
   "http://nexus:3010/v1" <> "").
Proof.
  refine (credential_and_address_nonempty key_in_environ base_url_flag
            hello_endpoint
            {| Client.api_key := "sk-from-environ";
               Client.base_url := "http://nexus:3010/v1" |}
            (body_of (parse_args key_in_environ base_url_flag)) _).
  left. reflexivity.
Defined.

(** C8, as stated, fails: [--base-url ""] is accepted, the client is built
    with the empty base address and the call is issued with it. *)
Lemma empty_base_address_accepted :
  calls (trace (main ∅ empty_url_flag unreachable)) =
    [({| Client.api_key := "sk-cursor-api-key"; Client.base_url := "" |},
      body_of (parse_args ∅ empty_url_flag))].
Proof. reflexivity. Qed.

(** C9. The loop body reads [chunk.choices[0]] first and fails with
    [IndexError], printing nothing, exactly when the chunk has no choice;
    so the loop over a sequence of chunks fails with [IndexError] exactly
    when some chunk has no choice, and returns exactly when every chunk has
    at least one. *)
Theorem first_choice_access_total_iff_nonempty
    (cs : list Chunk.ChatCompletionChunk) :
  (forall chunk,
     print_chunk chunk = ([], Raise IndexError) <-> Chunk.choices chunk = []) /\
  (result (for_each print_chunk cs) = Raise IndexError <->
   Exists (fun chunk => Chunk.choices chunk = []) cs) /\
  (result (for_each print_chunk cs) = Return tt <->
   Forall (fun chunk => Chunk.choices chunk <> []) cs).
Proof.
  split; [|split].
  - intros [[|[[[f|]]] more]]; cbn; split; congruence.
  - rewrite for_each_print_chunk. cbn [result snd].
    destruct (forallb has_choice cs) eqn:Hwf; split; try congruence.
    + apply has_choice_Forall in Hwf. intros Hbad.
      apply Exists_exists in Hbad. destruct Hbad as [chunk [Hin Hnil]].
      rewrite Forall_forall in Hwf. elim (Hwf chunk Hin Hnil).
    + intros _. apply no_choice_Exists. exact Hwf.
  - rewrite for_each_print_chunk, <- has_choice_Forall. cbn [result snd].
    destruct (forallb has_choice cs); split; congruence.
Qed.

(** C10, as the code has it. Every run whose credential is not empty
    starts with the same three prints, each ending a line: the model, the
    prompt, and 50 dashes; then comes the one call, and only what follows
    the call depends on the endpoint. With an empty credential the run
    ends in the constructor, before the first print. *)
Theorem preamble_precedes_call (environ : gmap string string)
    (argv : CommandLine) (ep : Endpoint) :
  let args := parse_args environ argv in
  (Args.api_key args <> "" ->
   exists rest,
     trace (main environ argv ep) =
       [ Print ("Sending request to " +:+ Args.model args +:+ "...") nl;
         Print ("Prompt: " +:+ Args.prompt args) nl;
         Print (str_mul "-" 50) nl;
         Create (client_of args) (body_of args) ] ++ rest /\
     calls rest = [] /\
     String.length (str_mul "-" 50) = 50 /\
     (forall n a, String.get n (str_mul "-" 50) = Some a -> a = "-"%char)) /\
  (Args.api_key args = "" -> trace (main environ argv ep) = []).
Proof.
  intros args. split; intros Hkey;
    [|rewrite (main_without_credential environ argv ep Hkey); reflexivity].
  assert (Hshape : exists rest,
            trace (main environ argv ep) =
              preamble args ++ Create (client_of args) (body_of args) :: rest).
  { destruct (Args.stream args) eqn:Hs.
    - rewrite (main_streaming environ argv ep Hkey Hs). fold args.
      destruct (respond_stream ep (client_of args) (body_of args));
        eexists; reflexivity.
    - rewrite (main_blocking environ argv ep Hkey Hs). fold args. cbv zeta.
      destruct (respond ep (client_of args) (body_of args)) as [response|e];
        [|eexists; reflexivity].
      destruct (Response.choices response); [eexists; reflexivity|].
      destruct (Response.usage response); eexists; reflexivity. }
  destruct Hshape as [rest Hrest]. exists rest.
  split; [exact Hrest|]. split; [|split].
  - pose proof (main_calls environ argv ep Hkey) as Hcalls.
    fold args in Hcalls.
    rewrite Hrest, calls_app in Hcalls. cbn in Hcalls. congruence.
  - apply str_mul_length.
  - intros n a. apply str_mul_dash.
Qed.

(** The service down: the preamble is out all the same. *)
Lemma preamble_precedes_call_witness :
  exists rest,
    trace (main ∅ no_flags unreachable) =
      [ Print "Sending request to claude-3.7-sonnet-thinking..." nl;
        Print "Prompt: Explain quantum computing in simple terms." nl;
        Print (str_mul "-" 50) nl;
        Create (client_of (parse_args ∅ no_flags))
               (body_of (parse_args ∅ no_flags)) ] ++ rest /\
    calls rest = [] /\
    String.length (str_mul "-" 50) = 50 /\
    (forall n a, String.get n (str_mul "-" 50) = Some a -> a = "-"%char).
Proof.
  refine (proj1 (preamble_precedes_call ∅ no_flags unreachable) _).
  discriminate.
Defined.

(** C10, as stated, fails: with CURSOR_API_KEY set to the empty string and
    no [--api-key], the run ends in the constructor with exit status 1 and
    has printed nothing, not even the preamble. *)
Lemma no_preamble_with_empty_credential :
  main empty_key_environ no_flags hello_endpoint =
    ([], Raise (OpenAIError MissingCredential)) /\
  stdout (trace (main empty_key_environ no_flags hello_endpoint)) = "" /\
  exit_status (main empty_key_environ no_flags hello_endpoint) = 1%Z.
Proof. split; [|split]; reflexivity. Qed.

(** ** Further properties of [main] *)

Section Loop.

Lemma bind_congr {A B : Type} (m : Proc A) (k k' : A -> Proc B) :
  (forall a, k a = k' a) -> bind m k = bind m k'.
Proof.
  intros H. destruct m as [t [a|e]]; [|reflexivity].
  unfold bind. rewrite H. reflexivity.
Qed.

Lemma bind_Return_congr {A B : Type} (t : list Event) (a a' : A)
    (k k' : A -> Proc B) :
  k a = k' a' -> bind (t, Return a) k = bind (t, Return a') k'.
Proof. intros H. unfold bind. rewrite H. reflexivity. Qed.

Lemma consumed_app (cs1 cs2 : list Chunk.ChatCompletionChunk) :
  consumed (cs1 ++ cs2) =
    if forallb has_choice cs1 then cs1 ++ consumed cs2 else consumed cs1.
Proof.
  induction cs1 as [|[[|c more]] cs1 IH]; cbn; [reflexivity | reflexivity |].
  rewrite IH. destruct (forallb has_choice cs1); reflexivity.
Qed.

Lemma print_chunk_trim (chunk : Chunk.ChatCompletionChunk) :
  print_chunk (trim_chunk chunk) = print_chunk chunk.
Proof. destruct chunk as [[|c more]]; reflexivity. Qed.

Lemma for_each_trim (cs : list Chunk.ChatCompletionChunk) :
  for_each print_chunk (map trim_chunk cs) = for_each print_chunk cs.
Proof.
  induction cs as [|chunk cs IH]; [reflexivity|].
  cbn [map for_each]. rewrite IH, print_chunk_trim. reflexivity.
Qed.

End Loop.

(** X1. A run returns, with exit status 0, exactly when its credential is
    not empty and the endpoint answers well: in streaming mode a stream
    that closes normally after chunks that all carry a choice, otherwise a
    completion with a choice and a usage block. In every other case the
    run ends with status 1. *)
Theorem exit_zero_iff_answered_well (environ : gmap string string)
    (argv : CommandLine) (ep : Endpoint) :
  let args := parse_args environ argv in
  (exit_status (main environ argv ep) = 0%Z <->
   Args.api_key args <> "" /\ answered_well args ep) /\
  (exit_status (main environ argv ep) = 1%Z <->
   ~ (Args.api_key args <> "" /\ answered_well args ep)).
Proof.
  intros args.
  assert (Hcase : forall (P : Prop) (r : Result unit),
            (P <-> r = Return tt) ->
            ((match r with Return _ => 0%Z | Raise _ => 1%Z end = 0%Z) <-> P) /\
            ((match r with Return _ => 0%Z | Raise _ => 1%Z end = 1%Z) <-> ~ P)).
  { intros P [[]|e] [H1 H2]; split; split; intros H;
      try reflexivity; try discriminate.
    - apply H2. reflexivity.
    - elim H. apply H2. reflexivity.
    - specialize (H1 H). discriminate.
    - intros HP. specialize (H1 HP). discriminate. }
  unfold exit_status, result. apply Hcase.
  destruct (Args.api_key args) as [|a k] eqn:Hempty.
  { rewrite (main_without_credential environ argv ep Hempty). cbn [snd].
    split; [intros [Hne _]; elim Hne; reflexivity | discriminate]. }
  assert (Hkey : Args.api_key args <> "") by (rewrite Hempty; discriminate).
  unfold answered_well. destruct (Args.stream args) eqn:Hs.
  - rewrite (main_streaming environ argv ep Hkey Hs). fold args.
    destruct (respond_stream ep (client_of args) (body_of args)) as [s|e];
      cbn [snd]; [|split; [tauto | discriminate]].
    rewrite <- has_choice_Forall.
    destruct (forallb has_choice (Chunk.chunks s)), (Chunk.failure s);
      split; try discriminate; try tauto;
      try (intros [_ [? ?]]; discriminate).
    intros _. split; [discriminate | split; reflexivity].
  - rewrite (main_blocking environ argv ep Hkey Hs). fold args. cbv zeta.
    destruct (respond ep (client_of args) (body_of args)) as [response|e];
      cbn [snd]; [|split; [tauto | discriminate]].
    destruct (Response.choices response) as [|c more]; cbn [snd];
      [split; [intros [_ [? ?]]; congruence | discriminate]|].
    destruct (Response.usage response) as [u|]; cbn [snd]; split;
      try discriminate; try (intros [_ [? ?]]; congruence).
    intros _. split; [discriminate | split; discriminate].
Qed.

(** X2. An exception raised by the call itself reaches the top level
    unchanged, in both modes: the run ends with that very exception, right
    after the preamble and the call. *)
Theorem call_exception_propagates_unchanged (environ : gmap string string)
    (argv : CommandLine) (ep : Endpoint) (e : Exception) :
  let args := parse_args environ argv in
  Args.api_key args <> "" ->
  (if opt_stream argv
   then respond_stream ep (client_of args) (body_of args) = Raise e
   else respond ep (client_of args) (body_of args) = Raise e) ->
  main environ argv ep =
    (preamble args ++ [Create (client_of args) (body_of args)], Raise e).
Proof.
  intros args Hkey Hraise. destruct (opt_stream argv) eqn:Hs.
  - rewrite (main_streaming environ argv ep Hkey Hs). fold args.
    rewrite Hraise. reflexivity.
  - rewrite (main_blocking environ argv ep Hkey Hs). fold args. cbv zeta.
    rewrite Hraise. reflexivity.
Qed.

Lemma call_exception_propagates_unchanged_witness :
  main ∅ no_flags unreachable =
    (preamble (parse_args ∅ no_flags) ++
     [Create (client_of (parse_args ∅ no_flags))
             (body_of (parse_args ∅ no_flags))],
     Raise (OpenAIError APIConnectionError)).
Proof.
  refine (call_exception_propagates_unchanged ∅ no_flags unreachable
            (OpenAIError APIConnectionError) _ eq_refl).
  discriminate.
Defined.

(** X3. When the transport fails while the stream is read, every fragment
    delivered before the failure has been printed, the closing [print] is
    not reached, and the run ends with the transport's exception. *)
Theorem broken_stream_keeps_delivered_fragments
    (environ : gmap string string) (argv : CommandLine) (ep : Endpoint)
    (s : Chunk.Stream) (e : Exception) :
  let args := parse_args environ argv in
  Args.api_key args <> "" ->
  opt_stream argv = true ->
  respond_stream ep (client_of args) (body_of args) = Return s ->
  Forall (fun chunk => Chunk.choices chunk <> []) (Chunk.chunks s) ->
  Chunk.failure s = Some e ->
  main environ argv ep =
    (preamble args ++ Create (client_of args) (body_of args) ::
       map print_fragment (fragments (Chunk.chunks s)),
     Raise e).
Proof.
  intros args Hkey Hflag Hcall Hwf Hend.
  rewrite (main_streaming environ argv ep Hkey Hflag). fold args.
  apply has_choice_Forall in Hwf.
  rewrite Hcall, Hwf, Hend, (consumed_all _ Hwf), app_nil_r. reflexivity.
Qed.

Lemma broken_stream_keeps_delivered_fragments_witness :
  main ∅ only_stream cut_stream =
    (preamble (parse_args ∅ only_stream) ++
     Create (client_of (parse_args ∅ only_stream))
            (body_of (parse_args ∅ only_stream)) :: [Print "Hel" ""],
     Raise (OpenAIError APIConnectionError)).
Proof.
  refine (broken_stream_keeps_delivered_fragments ∅ only_stream cut_stream
            _ _ _ eq_refl eq_refl _ eq_refl).
  - discriminate.
  - repeat constructor; discriminate.
Defined.

(** X4. A chunk without a choice stops the loop where it stands: the
    fragments of the chunks before it are printed, the chunks after it are
    never looked at, whatever they are and however the stream would have
    ended, and the run ends with [IndexError] without the closing [print]. *)
Theorem chunk_without_choice_stops_the_loop
    (environ : gmap string string) (argv : CommandLine) (ep : Endpoint)
    (s : Chunk.Stream)
    (before after : list Chunk.ChatCompletionChunk)
    (chunk : Chunk.ChatCompletionChunk) :
  let args := parse_args environ argv in
  Args.api_key args <> "" ->
  opt_stream argv = true ->
  respond_stream ep (client_of args) (body_of args) = Return s ->
  Chunk.chunks s = before ++ chunk :: after ->
  Forall (fun c => Chunk.choices c <> []) before ->
  Chunk.choices chunk = [] ->
  main environ argv ep =
    (preamble args ++ Create (client_of args) (body_of args) ::
       map print_fragment (fragments before),
     Raise IndexError).
Proof.
  intros args Hkey Hflag Hcall Hsplit Hwf Hbare.
  rewrite (main_streaming environ argv ep Hkey Hflag). fold args.
  apply has_choice_Forall in Hwf.
  rewrite Hcall, Hsplit, consumed_app, forallb_app, Hwf.
  cbn [consumed forallb andb]. unfold has_choice. rewrite Hbare.
  cbn [andb]. rewrite !app_nil_r. reflexivity.
Qed.

Lemma chunk_without_choice_stops_the_loop_witness :
  main ∅ only_stream bare_chunk_stream =
    (preamble (parse_args ∅ only_stream) ++
     Create (client_of (parse_args ∅ only_stream))
            (body_of (parse_args ∅ only_stream)) :: [Print "Hel" ""],
     Raise IndexError).
Proof.
  refine (chunk_without_choice_stops_the_loop ∅ only_stream bare_chunk_stream
            _ [chunk_of (Some "Hel")] [chunk_of (Some "lo")] bare_chunk
            _ eq_refl eq_refl eq_refl _ eq_refl).
  - discriminate.
  - repeat constructor; discriminate.
Defined.

(** X5. Only the first choice of a chunk or of a completion is ever read:
    cutting every list of choices after its first element changes nothing
    of a run, neither its trace nor its result. *)
Theorem only_first_choice_is_read (environ : gmap string string)
    (argv : CommandLine) (ep : Endpoint) :
  main environ argv (trim_endpoint ep) = main environ argv ep.
Proof.
  unfold main. cbv zeta.
  apply bind_congr; intros client.
  do 3 (apply bind_congr; intros _).
  destruct (Args.stream (parse_args environ argv)).
  - unfold create_stream. cbn [respond_stream trim_endpoint].
    destruct (respond_stream ep _ _) as [s|e]; [|reflexivity].
    cbn [trim_result]. apply bind_Return_congr.
    unfold for_chunk, trim_stream. cbn [Chunk.chunks Chunk.failure].
    rewrite for_each_trim. reflexivity.
  - unfold create. cbn [respond trim_endpoint].
    destruct (respond ep _ _) as [response|e]; [|reflexivity].
    cbn [trim_result]. apply bind_Return_congr.
    unfold trim_response.
    cbn [Response.choices Response.model Response.usage].
    destruct (Response.choices response) as [|c more]; reflexivity.
Qed.

(** X6. Outside streaming mode the content is printed without a test: a
    completion whose first choice has null content is shown as the line
    "None", followed by the separator and the model line. *)
Theorem null_content_is_printed_as_None (environ : gmap string string)
    (argv : CommandLine) (ep : Endpoint)
    (response : Response.ChatCompletion) (c : Response.Choice)
    (more : list Response.Choice) :
  let args := parse_args environ argv in
  Args.api_key args <> "" ->
  opt_stream argv = false ->
  respond ep (client_of args) (body_of args) = Return response ->
  Response.choices response = c :: more ->
  Response.content (Response.message c) = None ->
  exists rest,
    trace (main environ argv ep) =
      preamble args ++ Create (client_of args) (body_of args) ::
        Print "None" nl ::
        Print "--------------------------------------------------" nl ::
        Print ("Model: " +:+ Response.model response) nl :: rest.
Proof.
  intros args Hkey Hflag Hcall Hchoices Hnull.
  rewrite (main_blocking environ argv ep Hkey Hflag). fold args. cbv zeta.
  rewrite Hcall, Hchoices, Hnull.
  destruct (Response.usage response); eexists; reflexivity.
Qed.

Lemma null_content_is_printed_as_None_witness :
  exists rest,
    trace (main ∅ no_flags null_content) =
      preamble (parse_args ∅ no_flags) ++
      Create (client_of (parse_args ∅ no_flags))
             (body_of (parse_args ∅ no_flags)) ::
        Print "None" nl ::
        Print "--------------------------------------------------" nl ::
        Print "Model: nexus" nl :: rest.
Proof.
  refine (null_content_is_printed_as_None ∅ no_flags null_content _ _ _
            _ eq_refl eq_refl eq_refl eq_refl).
  discriminate.
Defined.

(** X8. The credential and the base address are never printed: against an
    endpoint that answers alike whoever calls, two runs in the same
    environment that differ only in [--api-key] and [--base-url], neither
    credential being empty, have the same standard output and the same
    result. *)
Theorem credentials_never_reach_stdout
    (environ : gmap string string) (argv : CommandLine)
    (key url : option string) (ep : Endpoint) :
  client_blind ep ->
  Args.api_key (parse_args environ argv) <> "" ->
  Args.api_key (parse_args environ (with_credentials key url argv)) <> "" ->
  stdout (trace (main environ argv ep)) =
    stdout (trace (main environ (with_credentials key url argv) ep)) /\
  result (main environ argv ep) =
    result (main environ (with_credentials key url argv) ep).
Proof.
  intros Hblind Hkey Hkey'.
  set (args := parse_args environ argv) in *.
  set (args' := parse_args environ (with_credentials key url argv)) in *.
  assert (Hbody : body_of args' = body_of args) by reflexivity.
  assert (Hpre : preamble args' = preamble args) by reflexivity.
  destruct (Hblind (client_of args') (client_of args) (body_of args))
    as [Hr Hs].
  destruct (opt_stream argv) eqn:Hflag.
  - rewrite (main_streaming environ argv ep Hkey Hflag).
    rewrite (main_streaming environ (with_credentials key url argv) ep
               Hkey' Hflag).
    fold args args'. rewrite Hbody, Hpre, Hs.
    destruct (respond_stream ep (client_of args) (body_of args)) as [s|e];
      cbn [trace result fst snd]; rewrite !stdout_app; split; reflexivity.
  - rewrite (main_blocking environ argv ep Hkey Hflag).
    rewrite (main_blocking environ (with_credentials key url argv) ep
               Hkey' Hflag).
    fold args args'. cbv zeta. rewrite Hbody, Hpre, Hr.
    destruct (respond ep (client_of args) (body_of args)) as [response|e];
      [|cbn [trace result fst snd]; rewrite !stdout_app; split; reflexivity].
    destruct (Response.choices response) as [|c more];
      [cbn [trace result fst snd]; rewrite !stdout_app; split; reflexivity|].
    destruct (Response.usage response) as [u|];
      cbn [trace result fst snd]; rewrite !stdout_app; split; reflexivity.
Qed.

Lemma mock_client_blind (r : Result Response.ChatCompletion)
    (s : Result Chunk.Stream) : client_blind (mock r s).
Proof. intros client client' body. split; reflexivity. Qed.

Lemma credentials_never_reach_stdout_witness :
  stdout (trace (main key_in_environ no_flags hello_endpoint)) =
    stdout (trace (main key_in_environ
                     (with_credentials (Some "sk-secret")
                                       (Some "http://nexus:3010/v1") no_flags)
                     hello_endpoint)) /\
  result (main key_in_environ no_flags hello_endpoint) =
    result (main key_in_environ
              (with_credentials (Some "sk-secret")
                                (Some "http://nexus:3010/v1") no_flags)
              hello_endpoint).
Proof.
  refine (credentials_never_reach_stdout key_in_environ no_flags
            (Some "sk-secret") (Some "http://nexus:3010/v1") hello_endpoint
            (mock_client_blind _ _) _ _); discriminate.
Defined.


